(** * Rule-based medical diagnosis model: shallow embedding of [src/model.py]

    The development embeds the class [MedicalDiagnosisModel] of
    [src/model.py] and proves the properties its specification states
    about the scoring pipeline.

    Modelling conventions.

    - Numbers.  A Python number (an [int] or a [float] of the declared type
      [Union[float, int]]) is modelled by the rational number it denotes,
      and the arithmetic of the program is exact arithmetic on [Q].
      Results are therefore compared with [Qeq] ([==]).  Rounding error of
      binary floating point, the values [nan] and [inf], and the conversion
      of an [int] that exceeds the range of a double are outside this model.
    - Dictionaries.  A Python [dict] keeps its insertion order, and the
      program iterates over all of its dictionaries, so a dictionary is an
      association list in insertion order (module [PyDict]).
    - Exceptions.  Operations that can raise in Python (subscription of a
      missing key, division by zero, [max] of an empty sequence, [raise])
      return in the error monad [M]; [try ... except Exception] is a match
      on the outcome.
    - Logging is not modelled. *)

From Stdlib Require Import QArith Qminmax Lqa ZArith Lia.
From Stdlib Require Import String List Bool Permutation.
Import ListNotations.

Open Scope string_scope.
Open Scope list_scope.
Open Scope Q_scope.

(** ** Insertion-ordered dictionaries with string keys *)

Module PyDict.

Definition dict (V : Type) : Type := list (string * V).

Definition keys {V} (d : dict V) : list string := map fst d.
Definition values {V} (d : dict V) : list V := map snd d.
Definition items {V} (d : dict V) : list (string * V) := d.
Definition len {V} (d : dict V) : nat := length d.

(** [d.get(k)] *)
Fixpoint get {V} (d : dict V) (k : string) : option V :=
  match d with
  | [] => None
  | (k', v) :: d' => if String.eqb k k' then Some v else get d' k
  end.

(** [k in d] *)
Definition mem {V} (k : string) (d : dict V) : bool :=
  match get d k with Some _ => true | None => false end.

(** [d.get(k, default)] *)
Definition get_default {V} (d : dict V) (k : string) (default : V) : V :=
  match get d k with Some v => v | None => default end.

(** [d[k] = v]: an existing key keeps its position, a new key is
    appended. *)
Fixpoint set {V} (k : string) (v : V) (d : dict V) : dict V :=
  match d with
  | [] => [(k, v)]
  | (k', v') :: d' =>
      if String.eqb k k' then (k', v) :: d' else (k', v') :: set k v d'
  end.

(** The truth value of a dictionary: [bool(d)]. *)
Definition truthy {V} (d : dict V) : bool :=
  match d with [] => false | _ :: _ => true end.

End PyDict.

Import PyDict.

(** ** Exceptions and the error monad *)

Inductive exn : Type :=
| ValueError (msg : string)
| KeyError (key : string)
| ZeroDivisionError (msg : string).

Inductive M (A : Type) : Type :=
| Ok (a : A)
| Raise (e : exn).
Arguments Ok {A} a.
Arguments Raise {A} e.

Definition ret {A} (a : A) : M A := Ok a.

Definition bind {A B} (m : M A) (f : A -> M B) : M B :=
  match m with
  | Ok a => f a
  | Raise e => Raise e
  end.

Notation "x <- m ;; k" := (bind m (fun x => k))
  (at level 61, m at next level, right associativity).
Notation "' pat <- m ;; k" := (bind m (fun x => match x with pat => k end))
  (at level 61, pat pattern, m at next level, right associativity).

(** A [for] loop over a list whose body updates the loop state and may
    raise. *)
Fixpoint for_each {A S} (body : S -> A -> M S) (l : list A) (st : S) : M S :=
  match l with
  | [] => ret st
  | x :: l' => st' <- body st x ;; for_each body l' st'
  end.

(** [str(e)] *)
Definition str_exn (e : exn) : string :=
  match e with
  | ValueError msg => msg
  | KeyError key => ("'" ++ key ++ "'")%string
  | ZeroDivisionError msg => msg
  end.

(** ** Python primitives on numbers *)

Module Py.

Definition ltb (x y : Q) : bool := negb (Qle_bool y x).
Definition leb (x y : Q) : bool := Qle_bool x y.
Definition eqb (x y : Q) : bool := Qeq_bool x y.

(** [a / b] on floats *)
Definition truediv (a b : Q) : M Q :=
  if eqb b 0 then Raise (ZeroDivisionError "float division by zero")
  else ret (a / b).

(** [d[k]] *)
Definition getitem {V} (d : dict V) (k : string) : M V :=
  match get d k with
  | Some v => ret v
  | None => Raise (KeyError k)
  end.

(** [max(a, b)]: the first argument is kept unless the second is
    strictly greater. *)
Definition max2 (a b : Q) : Q := if ltb a b then b else a.

(** [min(a, b)]: the first argument is kept unless the second is
    strictly smaller. *)
Definition min2 (a b : Q) : Q := if ltb b a then b else a.

(** [max(iterable, key=key)]: the first item whose key is maximal. *)
Fixpoint max_loop {A} (key : A -> Q) (best : A) (l : list A) : A :=
  match l with
  | [] => best
  | x :: l' => max_loop key (if ltb (key best) (key x) then x else best) l'
  end.

Definition max_by {A} (key : A -> Q) (l : list A) : M A :=
  match l with
  | [] => Raise (ValueError "max() arg is an empty sequence")
  | x :: l' => ret (max_loop key x l')
  end.

(** [max(iterable)] *)
Definition max_of (l : list Q) : M Q := max_by (fun x => x) l.

(** Rounding of a rational to the nearest integer, halves to even. *)
Definition round_half_even (x : Q) : Z :=
  let n := Qnum x in
  let d := Zpos (Qden x) in
  let f := (n / d)%Z in
  match (2 * (n mod d) ?= d)%Z with
  | Lt => f
  | Gt => (f + 1)%Z
  | Eq => if Z.even f then f else (f + 1)%Z
  end.

(** [round(x, ndigits)] *)
Definition round (x : Q) (ndigits : nat) : Q :=
  let scale := Z.pow 10 (Z.of_nat ndigits) in
  Qmake (round_half_even (x * inject_Z scale)) (Z.to_pos scale).

End Py.

(** ** The knowledge tables *)

Record MedicalDiagnosisModel : Type := {
  symptom_weights : dict Q;
  disease_patterns : dict (list string);
  severity_thresholds : dict (Q * Q)
}.

Definition _initialize_symptom_weights : dict Q :=
  [ ("fiebre", 0.8);
    ("dolor_cabeza", 0.6);
    ("nausea", 0.5);
    ("fatiga", 0.4);
    ("dolor_pecho", 0.9);
    ("dificultad_respirar", 0.95);
    ("dolor_abdominal", 0.7);
    ("mareos", 0.5);
    ("perdida_peso", 0.6);
    ("tos", 0.6);
    ("congestion_nasal", 0.3);
    ("dolor_garganta", 0.4);
    ("dolor_muscular", 0.4);
    ("dolor_articular", 0.5);
    ("erupcion_cutanea", 0.6);
    ("sangrado", 0.8);
    ("cambios_vision", 0.7);
    ("confusion", 0.9);
    ("convulsiones", 0.95);
    ("dolor_espalda", 0.5) ].

Definition _initialize_disease_patterns : dict (list string) :=
  [ ("infeccion_respiratoria",
      ["fiebre"; "tos"; "congestion_nasal"; "dolor_garganta"]);
    ("gastroenteritis", ["nausea"; "dolor_abdominal"; "fatiga"]);
    ("migrana", ["dolor_cabeza"; "nausea"; "mareos"]);
    ("ansiedad", ["dolor_pecho"; "dificultad_respirar"; "mareos"; "fatiga"]);
    ("diabetes", ["perdida_peso"; "fatiga"; "cambios_vision"]);
    ("hipertension", ["dolor_cabeza"; "mareos"; "dolor_pecho"]);
    ("artritis", ["dolor_articular"; "dolor_muscular"; "fatiga"]);
    ("enfermedad_cardiaca", ["dolor_pecho"; "dificultad_respirar"; "fatiga"]);
    ("enfermedad_renal", ["fatiga"; "nausea"; "dolor_espalda"]);
    ("enfermedad_hepatica",
      ["fatiga"; "nausea"; "dolor_abdominal"; "erupcion_cutanea"]);
    ("enfermedad_autoimmune",
      ["fatiga"; "dolor_articular"; "erupcion_cutanea"; "fiebre"]);
    ("cancer", ["perdida_peso"; "fatiga"; "dolor_abdominal"; "sangrado"]);
    ("enfermedad_neurologica",
      ["confusion"; "convulsiones"; "cambios_vision"; "mareos"]) ].

Definition _initialize_severity_thresholds : dict (Q * Q) :=
  [ ("NO_ENFERMO", (0.0, 0.3));
    ("ENFERMEDAD_LEVE", (0.3, 0.6));
    ("ENFERMEDAD_AGUDA", (0.6, 0.8));
    ("ENFERMEDAD_CRONICA", (0.8, 1.0)) ].

(** [MedicalDiagnosisModel.__init__] *)
Definition MedicalDiagnosisModel_init : MedicalDiagnosisModel :=
  {| symptom_weights := _initialize_symptom_weights;
     disease_patterns := _initialize_disease_patterns;
     severity_thresholds := _initialize_severity_thresholds |}.

(** ** The scoring pipeline *)

(** The body of the loop of [calculate_symptom_score]; the loop state is
    [(total_score, total_weight)]. *)
Definition symptom_score_body (self : MedicalDiagnosisModel)
    (st : Q * Q) (item : string * Q) : M (Q * Q) :=
  let '(total_score, total_weight) := st in
  let '(symptom, intensity) := item in
  if mem symptom (symptom_weights self) then
    x <- Py.truediv intensity 10.0 ;;
    let normalized_intensity := Py.min2 (Py.max2 x 0.0) 1.0 in
    weight <- Py.getitem (symptom_weights self) symptom ;;
    ret (total_score + normalized_intensity * weight, total_weight + weight)
  else ret (total_score, total_weight).

Definition calculate_symptom_score (self : MedicalDiagnosisModel)
    (symptoms : dict Q) : M Q :=
  ' (total_score, total_weight) <-
    for_each (symptom_score_body self) (items symptoms) (0.0, 0.0) ;;
  if Py.eqb total_weight 0 then ret 0.0
  else Py.truediv total_score total_weight.

(** The body of the inner loop of [detect_disease_patterns]; the loop state
    is [(score, matched_symptoms)]. *)
Definition pattern_symptom_body (self : MedicalDiagnosisModel)
    (symptoms : dict Q) (st : Q * nat) (symptom : string) : M (Q * nat) :=
  let '(score, matched_symptoms) := st in
  present <- (if mem symptom symptoms
              then v <- Py.getitem symptoms symptom ;; ret (Py.ltb 0 v)
              else ret false) ;;
  if (present : bool) then
    v <- Py.getitem symptoms symptom ;;
    x <- Py.truediv v 10.0 ;;
    let intensity := Py.min2 (Py.max2 x 0.0) 1.0 in
    let weight := get_default (symptom_weights self) symptom 0.5 in
    ret (score + intensity * weight, S matched_symptoms)
  else ret (score, matched_symptoms).

(** The body of the outer loop of [detect_disease_patterns]; the loop state
    is the dictionary [pattern_scores]. *)
Definition disease_pattern_body (self : MedicalDiagnosisModel)
    (symptoms : dict Q) (pattern_scores : dict Q)
    (entry : string * list string) : M (dict Q) :=
  let '(disease, pattern_symptoms) := entry in
  ' (score, _) <-
    for_each (pattern_symptom_body self symptoms) pattern_symptoms
             (0.0, 0%nat) ;;
  if (0 <? length pattern_symptoms)%nat then
    v <- Py.truediv score (inject_Z (Z.of_nat (length pattern_symptoms))) ;;
    ret (set disease v pattern_scores)
  else ret (set disease 0.0 pattern_scores).

Definition detect_disease_patterns (self : MedicalDiagnosisModel)
    (symptoms : dict Q) : M (dict Q) :=
  for_each (disease_pattern_body self symptoms)
           (items (disease_patterns self)) [].

(** [min_threshold <= adjusted_score < max_threshold] *)
Definition in_range (adjusted_score : Q) (range : Q * Q) : bool :=
  Py.leb (fst range) adjusted_score && Py.ltb adjusted_score (snd range).

(** The threshold loop of [determine_severity]: the label of the first
    entry whose range contains the score, if the loop returns. *)
Fixpoint threshold_loop (thresholds : list (string * (Q * Q)))
    (adjusted_score : Q) : option string :=
  match thresholds with
  | [] => None
  | (severity, range) :: rest =>
      if in_range adjusted_score range then Some severity
      else threshold_loop rest adjusted_score
  end.

Definition determine_severity (self : MedicalDiagnosisModel)
    (overall_score : Q) (pattern_scores : dict Q) : M string :=
  max_pattern_score <-
    (if truthy pattern_scores then Py.max_of (values pattern_scores)
     else ret 0.0) ;;
  adjusted_score <- Py.truediv (overall_score + max_pattern_score) 2.0 ;;
  match threshold_loop (items (severity_thresholds self)) adjusted_score with
  | Some severity => ret severity
  | None =>
      if Py.leb 1.0 adjusted_score then ret "ENFERMEDAD_CRONICA"
      else ret "NO_ENFERMO"
  end.

Definition _generate_recommendations (self : MedicalDiagnosisModel)
    (severity condition : string) : list string :=
  if String.eqb severity "NO_ENFERMO" then
    [ "Continuar con el monitoreo regular de la salud";
      "Mantener hábitos de vida saludables";
      "Consultar si aparecen nuevos síntomas" ]
  else if String.eqb severity "ENFERMEDAD_LEVE" then
    [ "Monitorear síntomas de cerca";
      "Considerar consulta médica si los síntomas persisten";
      "Mantener reposo y hidratación adecuada";
      "Evitar actividades extenuantes" ]
  else if String.eqb severity "ENFERMEDAD_AGUDA" then
    [ "CONSULTA MÉDICA INMEDIATA RECOMENDADA";
      "Buscar atención médica en las próximas 24 horas";
      "Monitorear signos vitales regularmente";
      "Evitar automedicación";
      "Considerar visita a urgencias si empeora" ]
  else if String.eqb severity "ENFERMEDAD_CRONICA" then
    [ "CONSULTA MÉDICA URGENTE REQUERIDA";
      "Buscar atención especializada inmediatamente";
      "Posible hospitalización requerida";
      "Monitoreo médico continuo necesario";
      "Seguimiento con especialista recomendado" ]
  else [].

(** ** The orchestrator *)

(** The values stored in a result record. *)
Inductive pyval : Type :=
| VStr (s : string)
| VFloat (x : Q)
| VList (l : list string)
| VDict (d : dict Q).

(** [max(pattern_scores.items(), key=lambda x: x[1]) if pattern_scores
    else ("ninguna", 0.0)] *)
Definition most_likely_disease (pattern_scores : dict Q) : M (string * Q) :=
  if truthy pattern_scores then Py.max_by snd (items pattern_scores)
  else ret ("ninguna", 0.0).

(** [{k: round(v, 3) for k, v in pattern_scores.items()}] *)
Definition rounded_scores (pattern_scores : dict Q) : dict Q :=
  fold_left (fun acc kv => set (fst kv) (Py.round (snd kv) 3) acc)
            (items pattern_scores) [].

(** The body of the [try] block of [predict_diagnosis]. *)
Definition predict_diagnosis_try (self : MedicalDiagnosisModel)
    (symptoms : dict Q) : M (dict pyval) :=
  _ <- (if negb (truthy symptoms) || (len symptoms <? 3)%nat
        then Raise (ValueError
               "Se requieren al menos 3 síntomas para el diagnóstico")
        else ret tt) ;;
  overall_score <- calculate_symptom_score self symptoms ;;
  pattern_scores <- detect_disease_patterns self symptoms ;;
  severity <- determine_severity self overall_score pattern_scores ;;
  most_likely <- most_likely_disease pattern_scores ;;
  let recommendations :=
    _generate_recommendations self severity (fst most_likely) in
  ret [ ("diagnosis", VStr severity);
        ("confidence", VFloat (Py.round overall_score 3));
        ("most_likely_condition", VStr (fst most_likely));
        ("condition_confidence", VFloat (Py.round (snd most_likely) 3));
        ("symptom_score", VFloat (Py.round overall_score 3));
        ("pattern_scores", VDict (rounded_scores pattern_scores));
        ("recommendations", VList recommendations);
        ("input_symptoms", VDict symptoms) ].

(** The record of the [except Exception] handler. *)
Definition error_result (e : exn) : dict pyval :=
  [ ("error", VStr (str_exn e));
    ("diagnosis", VStr "ERROR");
    ("confidence", VFloat 0.0) ].

Definition predict_diagnosis (self : MedicalDiagnosisModel)
    (symptoms : dict Q) : dict pyval :=
  match predict_diagnosis_try self symptoms with
  | Ok result => result
  | Raise e => error_result e
  end.

(** The module-level instance and its convenience wrapper. *)
Definition diagnosis_model : MedicalDiagnosisModel :=
  MedicalDiagnosisModel_init.

Definition predict_medical_diagnosis (symptoms : dict Q) : dict pyval :=
  predict_diagnosis diagnosis_model symptoms.

Definition example_symptoms : dict Q :=
  [ ("fiebre", 8); ("dolor_cabeza", 7); ("nausea", 5); ("fatiga", 6);
    ("dolor_pecho", 3) ].

(** * Specification-level definitions

    The definitions of this part follow the words of the specification, or
    name what a lemma below needs; the properties relate them to the
    program. *)

(** [clamp x lo hi]: [x] limited to the interval [[lo, hi]]. *)
Definition clamp (x lo hi : Q) : Q := Qmin (Qmax x lo) hi.

(** The normalised intensity of the program, as a function. *)
Definition normalize (intensity : Q) : Q :=
  Py.min2 (Py.max2 (intensity / 10.0) 0.0) 1.0.

(** Sum of a list of rationals. *)
Definition Qsum (l : list Q) : Q := fold_right Qplus 0 l.

(** A number of items, as a rational. *)
Definition count (n : nat) : Q := inject_Z (Z.of_nat n).

Section Specification.

Variable self : MedicalDiagnosisModel.

(** The weight of a symptom of the weight table. *)
Definition weight_of (symptom : string) : Q :=
  get_default (symptom_weights self) symptom 0.

(** The entries of the input whose key is in the weight table. *)
Definition recognized (symptoms : dict Q) : list (string * Q) :=
  filter (fun it => mem (fst it) (symptom_weights self)) (items symptoms).

(** Sum over the recognised entries of [clamp(intensity/10, 0, 1) * weight]. *)
Definition weighted_sum (symptoms : dict Q) : Q :=
  Qsum (map (fun it => clamp (snd it / 10) 0 1 * weight_of (fst it))
            (recognized symptoms)).

(** Sum over the recognised entries of the weights. *)
Definition weight_total (symptoms : dict Q) : Q :=
  Qsum (map (fun it => weight_of (fst it)) (recognized symptoms)).

(** The weight of a pattern symptom, [0.5] when the weight table does not
    have it. *)
Definition weight_or_default (symptom : string) : Q :=
  get_default (symptom_weights self) symptom 0.5.

(** A pattern symptom counts when the input has it with an intensity
    strictly greater than 0. *)
Definition present (symptoms : dict Q) (symptom : string) : bool :=
  match get symptoms symptom with
  | Some v => Py.ltb 0 v
  | None => false
  end.

(** The contribution of a pattern symptom that counts. *)
Definition contribution (symptoms : dict Q) (symptom : string) : Q :=
  clamp (get_default symptoms symptom 0 / 10) 0 1
  * weight_or_default symptom.

(** Sum of the contributions of the pattern symptoms that count. *)
Definition pattern_sum (symptoms : dict Q) (pattern : list string) : Q :=
  Qsum (map (contribution symptoms) (filter (present symptoms) pattern)).

(** The score of a condition: the sum divided by the number of symptoms of
    its pattern, and [0] for an empty pattern. *)
Definition pattern_score (symptoms : dict Q) (pattern : list string) : Q :=
  match pattern with
  | [] => 0
  | _ :: _ => pattern_sum symptoms pattern / count (length pattern)
  end.

(** The result of the matcher relates entry by entry to the table of
    patterns. *)
Definition scores_of (symptoms : dict Q)
    (pattern : string * list string) (entry : string * Q) : Prop :=
  fst entry = fst pattern
  /\ snd entry == pattern_score symptoms (snd pattern).


End Specification.

(** [first_max key l r]: [r] occurs in [l], every item before that
    occurrence has a strictly smaller key and every item after it a key
    that is not greater. *)
Definition first_max {A} (key : A -> Q) (l : list A) (r : A) : Prop :=
  exists l1 l2,
    l = l1 ++ r :: l2
    /\ (forall y, In y l1 -> key y < key r)
    /\ (forall y, In y l2 -> key y <= key r).

(** The adjusted score lies in the half-open range. *)
Definition within (adjusted_score : Q) (range : Q * Q) : Prop :=
  fst range <= adjusted_score /\ adjusted_score < snd range.

(** The strongest pattern score: the maximum of the values, [0.0] for an
    empty mapping. *)
Definition strongest (pattern_scores : dict Q) (best : Q) : Prop :=
  match pattern_scores with
  | [] => best = 0.0
  | _ :: _ =>
      In best (values pattern_scores)
      /\ (forall v, In v (values pattern_scores) -> v <= best)
  end.

(** An entry of the pattern scores with its value at 3 decimals. *)
Definition round3_entry (kv : string * Q) : string * Q :=
  (fst kv, Py.round (snd kv) 3).

(** The four severity labels, in the order of the threshold table. *)
Definition severity_labels : list string :=
  ["NO_ENFERMO"; "ENFERMEDAD_LEVE"; "ENFERMEDAD_AGUDA"; "ENFERMEDAD_CRONICA"].

(** The 13 known conditions, in the order of the pattern table. *)
Definition condition_names : list string :=
  [ "infeccion_respiratoria"; "gastroenteritis"; "migrana"; "ansiedad";
    "diabetes"; "hipertension"; "artritis"; "enfermedad_cardiaca";
    "enfermedad_renal"; "enfermedad_hepatica"; "enfermedad_autoimmune";
    "cancer"; "enfermedad_neurologica" ].

(** The message of the validation error. *)
Definition validation_message : string :=
  "Se requieren al menos 3 síntomas para el diagnóstico".

(** The record assembled by a successful run. *)
Definition success_result (self : MedicalDiagnosisModel) (symptoms : dict Q)
    (severity : string) (overall_score : Q) (pattern_scores : dict Q)
    (most_likely : string * Q) : dict pyval :=
  [ ("diagnosis", VStr severity);
    ("confidence", VFloat (Py.round overall_score 3));
    ("most_likely_condition", VStr (fst most_likely));
    ("condition_confidence", VFloat (Py.round (snd most_likely) 3));
    ("symptom_score", VFloat (Py.round overall_score 3));
    ("pattern_scores", VDict (rounded_scores pattern_scores));
    ("recommendations",
      VList (_generate_recommendations self severity (fst most_likely)));
    ("input_symptoms", VDict symptoms) ].

(** ** Definitions for the further properties *)


(** The position of a severity label in the order NO_ENFERMO,
    ENFERMEDAD_LEVE, ENFERMEDAD_AGUDA, ENFERMEDAD_CRONICA. *)
Definition severity_rank (severity : string) : nat :=
  if String.eqb severity "ENFERMEDAD_LEVE" then 1
  else if String.eqb severity "ENFERMEDAD_AGUDA" then 2
  else if String.eqb severity "ENFERMEDAD_CRONICA" then 3
  else 0.

(** The severity label as a function of the adjusted score. *)
Definition severity_of (adjusted_score : Q) : string :=
  if Py.ltb adjusted_score 0.3 then "NO_ENFERMO"
  else if Py.ltb adjusted_score 0.6 then "ENFERMEDAD_LEVE"
  else if Py.ltb adjusted_score 0.8 then "ENFERMEDAD_AGUDA"
  else "ENFERMEDAD_CRONICA".


(** Every symptom of every pattern has a weight in the weight table. *)
Definition patterns_weighted (self : MedicalDiagnosisModel) : Prop :=
  forall c pat sym,
    In (c, pat) (disease_patterns self) -> In sym pat ->
    mem sym (symptom_weights self) = true.

(** * Properties *)

(** ** Basic facts on the primitives *)

Lemma ltb_lt (x y : Q) : Py.ltb x y = true <-> x < y.
Proof.
  unfold Py.ltb. rewrite negb_true_iff.
  split; intros H.
  - apply Qnot_le_lt. intros Hle. apply Qle_bool_iff in Hle. congruence.
  - destruct (Qle_bool y x) eqn:E; [|reflexivity].
    apply Qle_bool_iff in E. lra.
Qed.

Lemma ltb_ge (x y : Q) : Py.ltb x y = false <-> y <= x.
Proof.
  unfold Py.ltb. rewrite negb_false_iff. apply Qle_bool_iff.
Qed.

Lemma leb_le (x y : Q) : Py.leb x y = true <-> x <= y.
Proof. apply Qle_bool_iff. Qed.

Lemma leb_gt (x y : Q) : Py.leb x y = false <-> y < x.
Proof.
  unfold Py.leb. split; intros H.
  - apply Qnot_le_lt. intros Hle. apply Qle_bool_iff in Hle. congruence.
  - destruct (Qle_bool x y) eqn:E; [|reflexivity].
    apply Qle_bool_iff in E. lra.
Qed.

Lemma eqb_eq (x y : Q) : Py.eqb x y = true <-> x == y.
Proof. apply Qeq_bool_iff. Qed.

Lemma eqb_neq (x y : Q) : Py.eqb x y = false <-> ~ x == y.
Proof.
  unfold Py.eqb. split; intros H.
  - intros E. apply Qeq_bool_iff in E. congruence.
  - destruct (Qeq_bool x y) eqn:E; [|reflexivity].
    apply Qeq_bool_iff in E. contradiction.
Qed.

Lemma truediv_nonzero (a b : Q) : ~ b == 0 -> Py.truediv a b = Ok (a / b).
Proof.
  intros H. unfold Py.truediv. apply eqb_neq in H. now rewrite H.
Qed.

Lemma truediv_10 (a : Q) : Py.truediv a 10.0 = Ok (a / 10.0).
Proof. reflexivity. Qed.

Lemma truediv_2 (a : Q) : Py.truediv a 2.0 = Ok (a / 2.0).
Proof. reflexivity. Qed.

Lemma getitem_some {V} (d : dict V) (k : string) (v : V) :
  get d k = Some v -> Py.getitem d k = Ok v.
Proof. intros H. unfold Py.getitem. now rewrite H. Qed.

Lemma mem_true_get {V} (d : dict V) (k : string) :
  mem k d = true -> exists v, get d k = Some v.
Proof.
  unfold mem. destruct (get d k) as [v|]; [eauto | discriminate].
Qed.

Lemma mem_false_get {V} (d : dict V) (k : string) :
  mem k d = false -> get d k = None.
Proof.
  unfold mem. destruct (get d k) as [v|]; [discriminate | reflexivity].
Qed.

(** ** Normalisation of an intensity *)

Lemma div_10 (i : Q) : i / 10.0 == i * 0.1.
Proof. field. Qed.

Lemma div_ten (i : Q) : i / 10 == i * 0.1.
Proof. field. Qed.

Ltac ltb_case a b :=
  let H := fresh "H" in
  destruct (Py.ltb a b) eqn:H; [apply ltb_lt in H | apply ltb_ge in H].

Ltac ltb_cases :=
  repeat match goal with
  | |- context [Py.ltb ?a ?b] => ltb_case a b
  end.

Lemma normalize_clamp (i : Q) : normalize i == clamp (i / 10) 0 1.
Proof.
  unfold normalize, clamp, Py.min2, Py.max2.
  pose proof (div_10 i) as E1. pose proof (div_ten i) as E2.
  set (x := i / 10.0) in *. set (y := i / 10) in *.
  pose proof (Q.max_spec y 0) as Hmax.
  pose proof (Q.min_spec (Qmax y 0) 1) as Hmin.
  set (m := Qmax y 0) in *. set (n := Qmin m 1) in *.
  destruct Hmax as [[? ?]|[? ?]]; destruct Hmin as [[? ?]|[? ?]];
    ltb_case x 0.0; ltb_cases; lra.
Qed.

Lemma normalize_range (i : Q) : 0 <= normalize i <= 1.
Proof.
  unfold normalize, Py.min2, Py.max2.
  ltb_case (i / 10.0) 0.0; ltb_cases; lra.
Qed.


Lemma Qsum_nonneg (l : list Q) : Forall (fun x => 0 <= x) l -> 0 <= Qsum l.
Proof.
  induction 1 as [|x l Hx _ IH]; simpl; [lra|]. lra.
Qed.

Lemma Qsum_le (f g : string * Q -> Q) (l : list (string * Q)) :
  (forall it, In it l -> f it <= g it) ->
  Qsum (map f l) <= Qsum (map g l).
Proof.
  induction l as [|it l IH]; intros H; simpl; [lra|].
  assert (f it <= g it) by (apply H; now left).
  assert (Qsum (map f l) <= Qsum (map g l))
    by (apply IH; intros; apply H; now right).
  lra.
Qed.

Lemma for_each_cons {A S} (body : S -> A -> M S) (x : A) (l : list A)
    (st : S) :
  for_each body (x :: l) st = (st' <- body st x ;; for_each body l st').
Proof. reflexivity. Qed.

Lemma for_each_app {A S} (body : S -> A -> M S) (l1 l2 : list A) (st : S) :
  for_each body (l1 ++ l2) st
  = (st' <- for_each body l1 st ;; for_each body l2 st').
Proof.
  revert st. induction l1 as [|x l1 IH]; intros st; simpl; [reflexivity|].
  destruct (body st x); simpl; [apply IH | reflexivity].
Qed.

(** ** The symptom scorer *)

Section SymptomScorer.

Variable self : MedicalDiagnosisModel.

Lemma symptom_score_body_eq (ts tw : Q) (k : string) (i : Q) :
  symptom_score_body self (ts, tw) (k, i)
  = match get (symptom_weights self) k with
    | Some w => Ok (ts + normalize i * w, tw + w)
    | None => Ok (ts, tw)
    end.
Proof.
  unfold symptom_score_body, mem, Py.getitem, normalize.
  destruct (get (symptom_weights self) k); reflexivity.
Qed.

Lemma symptom_loop (symptoms : dict Q) : forall ts tw,
  exists ts' tw',
    for_each (symptom_score_body self) (items symptoms) (ts, tw)
      = Ok (ts', tw')
    /\ ts' == ts + weighted_sum self symptoms
    /\ tw' == tw + weight_total self symptoms.
Proof.
  unfold weighted_sum, weight_total, recognized, items.
  induction symptoms as [|[k i] s IH]; intros ts tw.
  - exists ts, tw. simpl. repeat split; lra.
  - rewrite for_each_cons, symptom_score_body_eq.
    simpl filter. simpl fst.
    assert (Hm : mem k (symptom_weights self)
                 = match get (symptom_weights self) k with
                   | Some _ => true
                   | None => false
                   end) by reflexivity.
    rewrite Hm. clear Hm.
    destruct (get (symptom_weights self) k) as [w|] eqn:Hw.
    + destruct (IH (ts + normalize i * w) (tw + w))
        as (ts' & tw' & Hloop & Hts & Htw).
      exists ts', tw'. split; [exact Hloop|].
      simpl map. simpl Qsum. simpl fst. simpl snd.
      unfold weight_of at 1 3, get_default. rewrite Hw.
      rewrite Hts, Htw, (normalize_clamp i). split; ring.
    + apply IH.
Qed.

Lemma recognized_nil_iff (symptoms : dict Q) :
  recognized self symptoms = [] <->
  (forall k, In k (keys symptoms) -> mem k (symptom_weights self) = false).
Proof.
  unfold recognized, items, keys.
  induction symptoms as [|[k i] s IH]; simpl.
  - split; [intros _ ? [] | reflexivity].
  - destruct (mem k (symptom_weights self)) eqn:Hmem.
    + split; [discriminate|]. intros H.
      specialize (H k (or_introl eq_refl)). congruence.
    + rewrite IH. split.
      * intros H k' [<-|Hin]; auto.
      * intros H k' Hin. apply H. now right.
Qed.

(** The weights of the table are taken in (0, 1]. *)
Hypothesis weights_range : forall k w,
  get (symptom_weights self) k = Some w -> 0 < w /\ w <= 1.

Lemma weight_of_recognized (it : string * Q) (symptoms : dict Q) :
  In it (recognized self symptoms) ->
  0 < weight_of self (fst it) /\ weight_of self (fst it) <= 1.
Proof.
  unfold recognized. rewrite filter_In. intros [_ Hmem].
  destruct (mem_true_get _ _ Hmem) as [w Hw].
  unfold weight_of, get_default. rewrite Hw. eauto.
Qed.

Lemma weighted_sum_bounds (symptoms : dict Q) :
  0 <= weighted_sum self symptoms
  /\ weighted_sum self symptoms <= weight_total self symptoms.
Proof.
  unfold weighted_sum, weight_total. split.
  - apply Qsum_nonneg. rewrite Forall_map, Forall_forall. intros it Hin.
    destruct (weight_of_recognized it symptoms Hin) as [Hw _].
    pose proof (normalize_range (snd it)) as Hn.
    rewrite normalize_clamp in Hn. nra.
  - apply Qsum_le. intros it Hin.
    destruct (weight_of_recognized it symptoms Hin) as [Hw _].
    pose proof (normalize_range (snd it)) as Hn.
    rewrite normalize_clamp in Hn. nra.
Qed.

Lemma weight_total_pos (symptoms : dict Q) :
  recognized self symptoms <> [] -> 0 < weight_total self symptoms.
Proof.
  unfold weight_total. intros Hne.
  destruct (recognized self symptoms) as [|it l] eqn:E; [congruence|].
  assert (Hit : In it (recognized self symptoms)) by (rewrite E; now left).
  destruct (weight_of_recognized it symptoms Hit) as [Hw _].
  assert (Hl : 0 <= Qsum (map (fun it => weight_of self (fst it)) l)).
  { apply Qsum_nonneg. rewrite Forall_map, Forall_forall. intros it' Hin.
    assert (Hit' : In it' (recognized self symptoms)) by (rewrite E; now right).
    destruct (weight_of_recognized it' symptoms Hit'). lra. }
  simpl. lra.
Qed.

Lemma calculate_symptom_score_spec (symptoms : dict Q) :
  exists v,
    calculate_symptom_score self symptoms = Ok v
    /\ (0 < weight_total self symptoms ->
        v == weighted_sum self symptoms / weight_total self symptoms)
    /\ ((forall k, In k (keys symptoms) ->
           mem k (symptom_weights self) = false) -> v = 0.0)
    /\ ((exists k, In k (keys symptoms)
           /\ mem k (symptom_weights self) = true) ->
        0 < weight_total self symptoms)
    /\ 0 <= v <= 1.
Proof.
  unfold calculate_symptom_score.
  destruct (symptom_loop symptoms 0.0 0.0) as (ts & tw & Hloop & Hts & Htw).
  rewrite Hloop. simpl bind.
  destruct (weighted_sum_bounds symptoms) as [Hlo Hhi].
  assert (Hpos : recognized self symptoms <> [] ->
                 0 < weight_total self symptoms)
    by apply weight_total_pos.
  assert (Hnil : recognized self symptoms = [] ->
                 weight_total self symptoms == 0).
  { unfold weight_total. intros ->. simpl. lra. }
  destruct (Py.eqb tw 0) eqn:Hz.
  - apply eqb_eq in Hz. exists 0.0. split; [reflexivity|].
    repeat split; try lra.
    + intros [k [Hin Hmem]]. apply Hpos. rewrite recognized_nil_iff.
      intros H. specialize (H k Hin). congruence.
  - apply eqb_neq in Hz. rewrite (truediv_nonzero _ _ Hz).
    exists (ts / tw). split; [reflexivity|].
    assert (Htwpos : 0 < tw).
    { destruct (recognized self symptoms) eqn:E.
      - exfalso. apply Hz. rewrite Htw, Hnil by reflexivity. lra.
      - assert (0 < weight_total self symptoms) by (apply Hpos; congruence).
        lra. }
    repeat split.
    + intros _. rewrite Hts, Htw. field. lra.
    + intros H. apply recognized_nil_iff in H.
      exfalso. apply Hz. rewrite Htw, (Hnil H). lra.
    + intros [k [Hin Hmem]]. apply Hpos. rewrite recognized_nil_iff.
      intros H. specialize (H k Hin). congruence.
    + apply Qle_shift_div_l; lra.
    + apply Qle_shift_div_r; lra.
Qed.

End SymptomScorer.

(** ** Facts on dictionaries *)

Lemma get_In {V} (d : dict V) (k : string) (v : V) :
  get d k = Some v -> In (k, v) d.
Proof.
  induction d as [|[k' v'] d IH]; simpl; [discriminate|].
  destruct (String.eqb k k') eqn:E.
  - apply String.eqb_eq in E. intros [= ->]. subst. now left.
  - intros H. right. now apply IH.
Qed.

Lemma get_None_keys {V} (d : dict V) (k : string) :
  get d k = None <-> ~ In k (keys d).
Proof.
  unfold keys. induction d as [|[k' v'] d IH]; simpl.
  - split; [intros _ [] | reflexivity].
  - destruct (String.eqb k k') eqn:E.
    + apply String.eqb_eq in E. subst. split; [discriminate|].
      intros H. exfalso. apply H. now left.
    + apply String.eqb_neq in E. rewrite IH. split.
      * intros H [H'|H']; [congruence | contradiction].
      * intros H H'. apply H. now right.
Qed.

Lemma set_fresh {V} (d : dict V) (k : string) (v : V) :
  ~ In k (keys d) -> set k v d = d ++ [(k, v)].
Proof.
  unfold keys. induction d as [|[k' v'] d IH]; simpl; intros H.
  - reflexivity.
  - destruct (String.eqb k k') eqn:E.
    + apply String.eqb_eq in E. subst. exfalso. apply H. now left.
    + f_equal. apply IH. intros H'. apply H. now right.
Qed.

Lemma keys_app {V} (d1 d2 : dict V) : keys (d1 ++ d2) = keys d1 ++ keys d2.
Proof. unfold keys. apply map_app. Qed.




(** ** The pattern matcher *)

Lemma count_le (n m : nat) : (n <= m)%nat -> count n <= count m.
Proof.
  intros H. unfold count. rewrite <- Zle_Qle. lia.
Qed.

Lemma count_pos (n : nat) : (0 < n)%nat -> 0 < count n.
Proof.
  intros H. unfold count. change 0 with (inject_Z 0). rewrite <- Zlt_Qlt. lia.
Qed.

Lemma count_S (n : nat) : count (S n) == count n + 1.
Proof.
  unfold count. rewrite Nat2Z.inj_succ, <- Z.add_1_r, inject_Z_plus.
  reflexivity.
Qed.

Lemma Qsum_le_count (l : list Q) :
  Forall (fun x => x <= 1) l -> Qsum l <= count (length l).
Proof.
  induction 1 as [|x l Hx _ IH].
  - apply Qle_refl.
  - simpl length. rewrite count_S. simpl. lra.
Qed.

Section PatternMatcher.

Variable self : MedicalDiagnosisModel.

Lemma pattern_symptom_body_eq (symptoms : dict Q) (score : Q) (m : nat)
    (symptom : string) :
  pattern_symptom_body self symptoms (score, m) symptom
  = if present symptoms symptom
    then Ok (score + normalize (get_default symptoms symptom 0)
                     * weight_or_default self symptom, S m)
    else Ok (score, m).
Proof.
  unfold pattern_symptom_body, present, mem, Py.getitem, get_default,
    normalize, weight_or_default.
  destruct (get symptoms symptom) as [v|]; simpl; [|reflexivity].
  destruct (Py.ltb 0 v); reflexivity.
Qed.

Lemma pattern_loop (symptoms : dict Q) (pattern : list string) :
  forall score m,
  exists score',
    for_each (pattern_symptom_body self symptoms) pattern (score, m)
      = Ok (score', (m + length (filter (present symptoms) pattern))%nat)
    /\ score' == score + pattern_sum self symptoms pattern.
Proof.
  unfold pattern_sum.
  induction pattern as [|sym pat IH]; intros score m.
  - exists score. simpl. rewrite Nat.add_0_r. split; [reflexivity | lra].
  - rewrite for_each_cons, pattern_symptom_body_eq. simpl filter.
    destruct (present symptoms sym) eqn:Hp; simpl bind.
    + destruct (IH (score + normalize (get_default symptoms sym 0)
                            * weight_or_default self sym) (S m))
        as (score' & Hloop & Hs).
      exists score'. split.
      * rewrite Hloop. simpl length. rewrite Nat.add_succ_r. reflexivity.
      * simpl. unfold contribution at 1.
        rewrite Hs, (normalize_clamp (get_default symptoms sym 0)). ring.
    + apply IH.
Qed.

(** The weights of the table are taken in (0, 1]. *)
Hypothesis weights_range : forall k w,
  get (symptom_weights self) k = Some w -> 0 < w /\ w <= 1.

Lemma weight_or_default_range (symptom : string) :
  0 < weight_or_default self symptom /\ weight_or_default self symptom <= 1.
Proof.
  unfold weight_or_default, get_default.
  destruct (get (symptom_weights self) symptom) as [w|] eqn:Hw.
  - eauto.
  - split; lra.
Qed.

Lemma contribution_range (symptoms : dict Q) (symptom : string) :
  0 <= contribution self symptoms symptom <= 1.
Proof.
  unfold contribution.
  pose proof (weight_or_default_range symptom) as Hw.
  pose proof (normalize_range (get_default symptoms symptom 0)) as Hn.
  rewrite normalize_clamp in Hn. nra.
Qed.

Lemma pattern_sum_bounds (symptoms : dict Q) (pattern : list string) :
  0 <= pattern_sum self symptoms pattern
  /\ pattern_sum self symptoms pattern <= count (length pattern).
Proof.
  unfold pattern_sum. split.
  - apply Qsum_nonneg. rewrite Forall_map, Forall_forall. intros sym _.
    apply contribution_range.
  - eapply Qle_trans.
    + apply Qsum_le_count. rewrite Forall_map, Forall_forall.
      intros sym _. apply contribution_range.
    + rewrite length_map. apply count_le. apply filter_length_le.
Qed.

Lemma pattern_score_range (symptoms : dict Q) (pattern : list string) :
  0 <= pattern_score self symptoms pattern <= 1.
Proof.
  unfold pattern_score. destruct pattern as [|sym pat]; [lra|].
  destruct (pattern_sum_bounds symptoms (sym :: pat)) as [Hlo Hhi].
  assert (Hc : 0 < count (length (sym :: pat)))
    by (apply count_pos; simpl; lia).
  split.
  - apply Qle_shift_div_l; lra.
  - apply Qle_shift_div_r; lra.
Qed.

Lemma disease_pattern_body_eq (symptoms : dict Q) (acc : dict Q)
    (disease : string) (pattern : list string) :
  exists v,
    disease_pattern_body self symptoms acc (disease, pattern)
      = Ok (set disease v acc)
    /\ v == pattern_score self symptoms pattern.
Proof.
  unfold disease_pattern_body.
  destruct (pattern_loop symptoms pattern 0.0 0%nat) as (sc & Hloop & Hsc).
  rewrite Hloop. simpl bind.
  destruct pattern as [|sym pat].
  - exists 0.0. simpl. split; [reflexivity | lra].
  - assert (Hlt : (0 <? length (sym :: pat))%nat = true) by reflexivity.
    rewrite Hlt.
    assert (Hc : 0 < count (length (sym :: pat)))
      by (apply count_pos; simpl; lia).
    fold (count (length (sym :: pat))).
    rewrite truediv_nonzero by lra. simpl bind.
    eexists. split; [reflexivity|].
    unfold pattern_score. rewrite Hsc. simpl length in *. field. lra.
Qed.

Lemma detect_loop (symptoms : dict Q) (patterns : dict (list string)) :
  forall acc : dict Q,
  NoDup (keys patterns) ->
  (forall k, In k (keys patterns) -> ~ In k (keys acc)) ->
  exists d,
    for_each (disease_pattern_body self symptoms) patterns acc
      = Ok (acc ++ d)
    /\ Forall2 (scores_of self symptoms) patterns d.
Proof.
  induction patterns as [|[c pat] ps IH]; intros acc Hnd Hfresh.
  - exists []. simpl. rewrite app_nil_r. split; [reflexivity | constructor].
  - rewrite for_each_cons.
    destruct (disease_pattern_body_eq symptoms acc c pat) as (v & Hb & Hv).
    rewrite Hb. simpl bind.
    rewrite set_fresh by (apply Hfresh; now left).
    simpl in Hnd. inversion Hnd as [|? ? Hc Hnd']; subst.
    destruct (IH (acc ++ [(c, v)]) Hnd') as (d & Hloop & Hd).
    { intros k Hk. rewrite keys_app, in_app_iff. simpl.
      intros [H|[H|[]]].
      - apply (Hfresh k); [now right | exact H].
      - subst. contradiction. }
    exists ((c, v) :: d). split.
    + rewrite Hloop, <- app_assoc. reflexivity.
    + constructor; [|exact Hd]. split; [reflexivity | exact Hv].
Qed.

Lemma scores_keys (symptoms : dict Q) (patterns : dict (list string))
    (d : dict Q) :
  Forall2 (scores_of self symptoms) patterns d -> keys d = keys patterns.
Proof.
  unfold keys. induction 1 as [|p e ps d [Hk _] _ IH]; simpl;
    [reflexivity | congruence].
Qed.

Lemma scores_get (symptoms : dict Q) (patterns : dict (list string))
    (d : dict Q) :
  Forall2 (scores_of self symptoms) patterns d ->
  forall c,
    match get patterns c, get d c with
    | Some pat, Some v => v == pattern_score self symptoms pat
    | None, None => True
    | _, _ => False
    end.
Proof.
  induction 1 as [|[c' pat] [c'' v] ps d [Hk Hv] _ IH]; intros c; simpl.
  - exact I.
  - simpl in Hk, Hv. subst c''.
    destruct (String.eqb c c'); [exact Hv | apply IH].
Qed.

Hypothesis patterns_nodup : NoDup (keys (disease_patterns self)).

Lemma detect_disease_patterns_spec (symptoms : dict Q) :
  exists d,
    detect_disease_patterns self symptoms = Ok d
    /\ keys d = keys (disease_patterns self)
    /\ (forall c pat, get (disease_patterns self) c = Some pat ->
          exists v, get d c = Some v
                    /\ v == pattern_score self symptoms pat)
    /\ (forall c v, get d c = Some v ->
          0 <= v <= 1 /\ exists pat, get (disease_patterns self) c = Some pat).
Proof.
  unfold detect_disease_patterns, items.
  destruct (detect_loop symptoms (disease_patterns self) [] patterns_nodup)
    as (d & Hloop & Hd).
  { intros k _ []. }
  exists d. simpl in Hloop. split; [exact Hloop|].
  split; [eapply scores_keys; eassumption|].
  pose proof (scores_get symptoms _ _ Hd) as Hget.
  split.
  - intros c pat Hc. specialize (Hget c). rewrite Hc in Hget.
    destruct (get d c) as [v|]; [eauto | contradiction].
  - intros c v Hc. specialize (Hget c). rewrite Hc in Hget.
    destruct (get (disease_patterns self) c) as [pat|]; [|contradiction].
    split; [|eauto]. rewrite Hget. apply pattern_score_range.
Qed.

End PatternMatcher.

(** ** The first maximum of a sequence *)

Lemma max_loop_first_max {A} (key : A -> Q) (l : list A) :
  forall best, first_max key (best :: l) (Py.max_loop key best l).
Proof.
  induction l as [|x l IH]; intros best.
  - exists [], []. simpl. repeat split; intros y [].
  - simpl Py.max_loop. ltb_case (key best) (key x).
    + destruct (IH x) as (l1 & l2 & E & H1 & H2).
      generalize dependent (Py.max_loop key x l). intros r E H1 H2.
      exists (best :: l1), l2. split; [simpl; now rewrite E|].
      split; [|exact H2].
      assert (Hx : key x <= key r).
      { destruct l1 as [|y l1]; simpl in E; injection E as Hhd _.
        - rewrite Hhd. apply Qle_refl.
        - apply Qlt_le_weak. apply H1. left. now symmetry. }
      intros y [<-|Hy]; [lra | now apply H1].
    + destruct (IH best) as (l1 & l2 & E & H1 & H2).
      generalize dependent (Py.max_loop key best l). intros r E H1 H2.
      destruct l1 as [|y l1]; simpl in E; injection E as Hhd Htl.
      * exists [], (x :: l2). split; [simpl; now rewrite <- Hhd, Htl|].
        split; [intros y [] |].
        intros y [<-|Hy]; [rewrite <- Hhd; lra | now apply H2].
      * exists (best :: x :: l1), l2. split; [simpl; now rewrite Htl|].
        split; [|exact H2].
        assert (Hb : key best < key r) by (apply H1; left; now symmetry).
        intros z [<-|[<-|Hz]]; [exact Hb | lra |].
        apply H1. now right.
Qed.

Lemma max_by_first_max {A} (key : A -> Q) (l : list A) :
  l <> [] -> exists r, Py.max_by key l = Ok r /\ first_max key l r.
Proof.
  destruct l as [|x l]; [congruence|]. intros _.
  exists (Py.max_loop key x l). split; [reflexivity|].
  apply max_loop_first_max.
Qed.

Lemma first_max_In {A} (key : A -> Q) (l : list A) (r : A) :
  first_max key l r -> In r l.
Proof.
  intros (l1 & l2 & -> & _). apply in_elt.
Qed.

Lemma first_max_upper {A} (key : A -> Q) (l : list A) (r : A) :
  first_max key l r -> forall y, In y l -> key y <= key r.
Proof.
  intros (l1 & l2 & -> & H1 & H2) y Hy.
  apply in_app_or in Hy. destruct Hy as [Hy|[<-|Hy]].
  - apply Qlt_le_weak. now apply H1.
  - apply Qle_refl.
  - now apply H2.
Qed.

(** ** The severity classifier *)

Lemma in_range_within (a : Q) (range : Q * Q) :
  in_range a range = true <-> within a range.
Proof.
  unfold in_range, within. rewrite andb_true_iff, leb_le, ltb_lt. tauto.
Qed.

Lemma in_range_not_within (a : Q) (range : Q * Q) :
  in_range a range = false <-> ~ within a range.
Proof.
  rewrite <- in_range_within. destruct (in_range a range); split; congruence.
Qed.

Lemma threshold_loop_some (ths : list (string * (Q * Q))) (a : Q)
    (severity : string) :
  threshold_loop ths a = Some severity <->
  exists l1 range l2,
    ths = l1 ++ (severity, range) :: l2
    /\ within a range
    /\ (forall e, In e l1 -> ~ within a (snd e)).
Proof.
  induction ths as [|[sev rg] ths IH]; simpl.
  - split; [discriminate|]. intros (l1 & rg & l2 & E & _).
    destruct l1; discriminate.
  - destruct (in_range a rg) eqn:Hin.
    + apply in_range_within in Hin. split.
      * intros [= <-]. exists [], rg, ths. repeat split; try apply Hin.
        intros e [].
      * intros (l1 & rg' & l2 & E & Hw & Hl1).
        destruct l1 as [|e l1].
        -- simpl in E. congruence.
        -- simpl in E. injection E as <- _.
           exfalso. apply (Hl1 (sev, rg)); [now left | exact Hin].
    + apply in_range_not_within in Hin. rewrite IH. split.
      * intros (l1 & rg' & l2 & -> & Hw & Hl1).
        exists ((sev, rg) :: l1), rg', l2. repeat split; try apply Hw.
        intros e [<-|He]; [exact Hin | now apply Hl1].
      * intros (l1 & rg' & l2 & E & Hw & Hl1).
        destruct l1 as [|e l1].
        -- simpl in E. injection E as -> ->. contradiction.
        -- simpl in E. injection E as <- ->.
           exists l1, rg', l2. repeat split; try apply Hw.
           intros e He. apply Hl1. now right.
Qed.

Lemma threshold_loop_none (ths : list (string * (Q * Q))) (a : Q) :
  threshold_loop ths a = None <->
  (forall e, In e ths -> ~ within a (snd e)).
Proof.
  induction ths as [|[sev rg] ths IH]; simpl.
  - split; [intros _ e [] | reflexivity].
  - destruct (in_range a rg) eqn:Hin.
    + apply in_range_within in Hin. split; [discriminate|].
      intros H. exfalso. apply (H (sev, rg)); [now left | exact Hin].
    + apply in_range_not_within in Hin. rewrite IH. split.
      * intros H e [<-|He]; [exact Hin | now apply H].
      * intros H e He. apply H. now right.
Qed.

Lemma determine_severity_unfold (self : MedicalDiagnosisModel)
    (overall_score : Q) (pattern_scores : dict Q) :
  exists best,
    strongest pattern_scores best
    /\ determine_severity self overall_score pattern_scores
       = match threshold_loop (severity_thresholds self)
                 ((overall_score + best) / 2.0) with
         | Some severity => Ok severity
         | None =>
             if Py.leb 1.0 ((overall_score + best) / 2.0)
             then Ok "ENFERMEDAD_CRONICA"
             else Ok "NO_ENFERMO"
         end.
Proof.
  unfold determine_severity, items.
  destruct pattern_scores as [|e ps].
  - exists 0.0. split; [reflexivity|]. simpl truthy. cbv iota.
    unfold ret at 1. unfold bind at 1. rewrite truediv_2. unfold bind at 1.
    destruct (threshold_loop _ _); [reflexivity|].
    destruct (Py.leb _ _); reflexivity.
  - destruct (max_by_first_max (fun x : Q => x) (values (e :: ps)))
      as (best & Hmax & Hfirst); [discriminate|].
    exists best. split.
    + split; [eapply first_max_In; eassumption|].
      intros v Hv. apply (first_max_upper _ _ _ Hfirst v Hv).
    + simpl truthy. cbv iota. unfold Py.max_of. rewrite Hmax.
      unfold bind at 1. rewrite truediv_2. unfold bind at 1.
      destruct (threshold_loop _ _); [reflexivity|].
      destruct (Py.leb _ _); reflexivity.
Qed.

Lemma half_eq (x : Q) : x / 2.0 == x / 2.
Proof. field. Qed.

(** ** Monotonicity of the two scores in an intensity *)

Section Monotone.

Variable self : MedicalDiagnosisModel.

Hypothesis weights_range : forall k w,
  get (symptom_weights self) k = Some w -> 0 < w /\ w <= 1.

Variables (k : string) (a b : Q).
Hypothesis a_le_b : a <= b.







End Monotone.

(** ** Rounding *)





(** ** The rounded copy of the pattern scores *)

Lemma rounded_scores_loop (ps acc : dict Q) :
  NoDup (keys acc ++ keys ps) ->
  fold_left (fun acc kv => set (fst kv) (Py.round (snd kv) 3) acc) ps acc
  = acc ++ map round3_entry ps.
Proof.
  revert acc. induction ps as [|[c v] ps IH]; intros acc Hnd; simpl.
  - now rewrite app_nil_r.
  - simpl in Hnd. rewrite set_fresh.
    + rewrite IH.
      * rewrite <- app_assoc. reflexivity.
      * rewrite keys_app. simpl. rewrite <- app_assoc. exact Hnd.
    + apply NoDup_remove_2 in Hnd. intros H. apply Hnd.
      apply in_or_app. now left.
Qed.

Lemma rounded_scores_map (ps : dict Q) :
  NoDup (keys ps) -> rounded_scores ps = map round3_entry ps.
Proof.
  intros Hnd. unfold rounded_scores, items.
  now rewrite rounded_scores_loop.
Qed.

Lemma get_map_round3 (ps : dict Q) (c : string) :
  get (map round3_entry ps) c
  = option_map (fun v => Py.round v 3) (get ps c).
Proof.
  induction ps as [|[c' v] ps IH]; simpl; [reflexivity|].
  destruct (String.eqb c c'); [reflexivity | exact IH].
Qed.

Lemma get_first {V} (l1 l2 : dict V) (c : string) (v : V) :
  ~ In c (keys l1) -> get (l1 ++ (c, v) :: l2) c = Some v.
Proof.
  unfold keys. induction l1 as [|[c' v'] l1 IH]; simpl; intros H.
  - now rewrite String.eqb_refl.
  - destruct (String.eqb c c') eqn:E.
    + apply String.eqb_eq in E. subst. exfalso. apply H. now left.
    + apply IH. intros H'. apply H. now right.
Qed.

(** ** The tables of the module-level instance *)

Lemma model_weights_range : forall k w,
  get (symptom_weights diagnosis_model) k = Some w -> 0 < w /\ w <= 1.
Proof.
  intros k w H. apply get_In in H.
  assert (Hall : forallb (fun it : string * Q =>
                            Py.ltb 0 (snd it) && Py.leb (snd it) 1)
                         (symptom_weights diagnosis_model) = true)
    by reflexivity.
  rewrite forallb_forall in Hall. specialize (Hall _ H). simpl in Hall.
  apply andb_true_iff in Hall. destruct Hall as [H1 H2].
  apply ltb_lt in H1. apply leb_le in H2. now split.
Qed.

Lemma model_condition_names :
  keys (disease_patterns diagnosis_model) = condition_names.
Proof. reflexivity. Qed.

Lemma condition_names_nodup : NoDup condition_names.
Proof.
  unfold condition_names.
  repeat (constructor; [simpl; intuition discriminate|]). constructor.
Qed.

Lemma model_patterns_nodup : NoDup (keys (disease_patterns diagnosis_model)).
Proof. rewrite model_condition_names. apply condition_names_nodup. Qed.

Lemma model_threshold_loop_labels (a : Q) (severity : string) :
  threshold_loop (severity_thresholds diagnosis_model) a = Some severity ->
  In severity severity_labels.
Proof.
  simpl. unfold severity_labels.
  repeat match goal with
  | |- context [in_range a ?r] => destruct (in_range a r)
  end; intros [= <-]; simpl; auto.
Qed.

Lemma model_determine_severity_labels (overall_score : Q)
    (pattern_scores : dict Q) :
  exists severity,
    determine_severity diagnosis_model overall_score pattern_scores
      = Ok severity
    /\ In severity severity_labels.
Proof.
  destruct (determine_severity_unfold diagnosis_model overall_score
              pattern_scores) as (best & _ & ->).
  destruct (threshold_loop _ _) as [sev|] eqn:E.
  - exists sev. split; [reflexivity|].
    eapply model_threshold_loop_labels; eassumption.
  - destruct (Py.leb _ _); eexists; (split; [reflexivity|]);
      unfold severity_labels; simpl; auto.
Qed.

(** ** The orchestrator *)

Lemma predict_diagnosis_try_invalid (self : MedicalDiagnosisModel)
    (symptoms : dict Q) :
  (len symptoms < 3)%nat ->
  predict_diagnosis_try self symptoms = Raise (ValueError validation_message).
Proof.
  intros H. unfold predict_diagnosis_try.
  assert (E : negb (truthy symptoms) || (len symptoms <? 3)%nat = true).
  { apply orb_true_iff. right. now apply Nat.ltb_lt. }
  rewrite E. reflexivity.
Qed.

Lemma predict_diagnosis_try_valid (symptoms : dict Q) :
  (3 <= len symptoms)%nat ->
  exists overall_score pattern_scores severity most_likely,
    calculate_symptom_score diagnosis_model symptoms = Ok overall_score
    /\ detect_disease_patterns diagnosis_model symptoms = Ok pattern_scores
    /\ keys pattern_scores = condition_names
    /\ determine_severity diagnosis_model overall_score pattern_scores
       = Ok severity
    /\ In severity severity_labels
    /\ most_likely_disease pattern_scores = Ok most_likely
    /\ first_max snd pattern_scores most_likely
    /\ predict_diagnosis_try diagnosis_model symptoms
       = Ok (success_result diagnosis_model symptoms severity overall_score
               pattern_scores most_likely).
Proof.
  intros Hlen. unfold predict_diagnosis_try.
  assert (E : negb (truthy symptoms) || (len symptoms <? 3)%nat = false).
  { apply orb_false_iff. split.
    - destruct symptoms; [simpl in Hlen; lia | reflexivity].
    - now apply Nat.ltb_ge. }
  rewrite E. unfold ret at 1. unfold bind at 1.
  destruct (calculate_symptom_score_spec diagnosis_model model_weights_range
              symptoms) as (overall & Hcalc & _).
  destruct (detect_disease_patterns_spec diagnosis_model model_weights_range
              model_patterns_nodup symptoms) as (ps & Hdet & Hkeys & _).
  rewrite model_condition_names in Hkeys.
  destruct (model_determine_severity_labels overall ps) as (sev & Hsev & Hlab).
  assert (Hne : ps <> []) by (intros ->; discriminate).
  destruct (max_by_first_max snd ps Hne) as (ml & Hml & Hfirst).
  assert (Hmost : most_likely_disease ps = Ok ml).
  { unfold most_likely_disease, items. destruct ps; [congruence | exact Hml]. }
  exists overall, ps, sev, ml.
  rewrite Hcalc. unfold bind at 1. rewrite Hdet. unfold bind at 1.
  rewrite Hsev. unfold bind at 1. rewrite Hmost. unfold bind at 1.
  repeat split; assumption || reflexivity.
Qed.

Lemma predict_diagnosis_error_free (symptoms : dict Q) :
  get (predict_diagnosis diagnosis_model symptoms) "error" = None ->
  (3 <= len symptoms)%nat.
Proof.
  intros H. destruct (Nat.lt_ge_cases (len symptoms) 3) as [Hlt|Hge];
    [|exact Hge].
  unfold predict_diagnosis in H.
  rewrite (predict_diagnosis_try_invalid _ _ Hlt) in H. discriminate.
Qed.


(** ** The example of the source *)

Example example_overall_score :
  match calculate_symptom_score diagnosis_model example_symptoms with
  | Ok v => v == 0.56875
  | Raise _ => False
  end.
Proof. vm_compute. reflexivity. Qed.

Example example_diagnosis :
  get (predict_medical_diagnosis example_symptoms) "diagnosis"
    = Some (VStr "ENFERMEDAD_LEVE")
  /\ get (predict_medical_diagnosis example_symptoms) "confidence"
     = Some (VFloat 0.569)
  /\ get (predict_medical_diagnosis example_symptoms) "most_likely_condition"
     = Some (VStr "hipertension")
  /\ get (predict_medical_diagnosis example_symptoms) "condition_confidence"
     = Some (VFloat 0.230).
Proof. vm_compute. repeat split. Qed.

(** Intensities outside [0, 10] are clamped; an intensity of 0 or less does
    not count for a pattern. *)
Example example_clamped :
  match calculate_symptom_score diagnosis_model
          [("fiebre", 15); ("tos", 25); ("nausea", 10)] with
  | Ok v => v == 1
  | Raise _ => False
  end
  /\ match calculate_symptom_score diagnosis_model
            [("fiebre", -3); ("tos", 0); ("nausea", -1)] with
     | Ok v => v == 0
     | Raise _ => False
     end
  /\ match detect_disease_patterns diagnosis_model
            [("nausea", 0); ("dolor_abdominal", -4); ("fatiga", 10)] with
     | Ok d =>
         match get d "gastroenteritis" with
         | Some v => v == 0.4 / 3
         | None => False
         end
     | Raise _ => False
     end.
Proof. vm_compute. repeat split. Qed.

(** The ranges are closed below and open above. *)
Example example_boundaries :
  determine_severity diagnosis_model 0.3 [("x", 0.3)] = Ok "ENFERMEDAD_LEVE"
  /\ determine_severity diagnosis_model 0.6 [("x", 0.6)]
     = Ok "ENFERMEDAD_AGUDA"
  /\ determine_severity diagnosis_model 0.8 [("x", 0.8)]
     = Ok "ENFERMEDAD_CRONICA"
  /\ determine_severity diagnosis_model 0.5 [("x", 0.0999)]
     = Ok "NO_ENFERMO".
Proof. repeat split. Qed.

Example example_too_few :
  predict_medical_diagnosis [("fiebre", 8)]
  = [ ("error", VStr validation_message);
      ("diagnosis", VStr "ERROR");
      ("confidence", VFloat 0.0) ].
Proof. reflexivity. Qed.

(** * The claims *)





Lemma in_range_compat (a a' : Q) (range : Q * Q) :
  a == a' -> in_range a range = in_range a' range.
Proof.
  intros E. unfold in_range, Py.leb, Py.ltb. now rewrite E.
Qed.

Lemma threshold_loop_compat (ths : list (string * (Q * Q))) (a a' : Q) :
  a == a' -> threshold_loop ths a = threshold_loop ths a'.
Proof.
  intros E. induction ths as [|[sev rg] ths IH]; simpl; [reflexivity|].
  now rewrite (in_range_compat a a' rg E), IH.
Qed.

Lemma strongest_unique (pattern_scores : dict Q) (best best' : Q) :
  strongest pattern_scores best -> strongest pattern_scores best' ->
  best == best'.
Proof.
  unfold strongest. destruct pattern_scores as [|e ps].
  - intros -> ->. reflexivity.
  - intros [Hin Hup] [Hin' Hup'].
    apply Qle_antisym; [now apply Hup' | now apply Hup].
Qed.

Lemma model_threshold_loop_high (a : Q) :
  1 <= a -> threshold_loop (severity_thresholds diagnosis_model) a = None.
Proof.
  intros Ha. apply threshold_loop_none.
  intros e He [_ Hhi]. simpl in He.
  destruct He as [<-|[<-|[<-|[<-|[]]]]]; simpl in Hhi; lra.
Qed.

(** C3.  With [best] the maximum of the pattern scores ([0.0] for an empty
    mapping) and [adjusted = (overall + best) / 2], [determine_severity]
    returns the label of the first range [[low, high)] of the threshold
    table that contains [adjusted]; it returns ENFERMEDAD_CRONICA (CHRONIC)
    when [adjusted >= 1.0]; and when no range contains [adjusted] and
    [adjusted < 1.0] it falls back to NO_ENFERMO (NOT_SICK).  In
    particular the overall score 0.0 with the empty mapping gives
    NO_ENFERMO, and the overall score 1.0 with the mapping x -> 1.0 gives
    ENFERMEDAD_CRONICA. *)
Theorem C3_determine_severity :
  (forall (overall_score : Q) (pattern_scores : dict Q) (best adjusted : Q),
     strongest pattern_scores best ->
     adjusted == (overall_score + best) / 2 ->
     (forall l1 severity range l2,
        severity_thresholds diagnosis_model = l1 ++ (severity, range) :: l2 ->
        within adjusted range ->
        (forall e, In e l1 -> ~ within adjusted (snd e)) ->
        determine_severity diagnosis_model overall_score pattern_scores
        = Ok severity)
     /\ (1 <= adjusted ->
         determine_severity diagnosis_model overall_score pattern_scores
         = Ok "ENFERMEDAD_CRONICA")
     /\ (adjusted < 1 ->
         (forall e, In e (severity_thresholds diagnosis_model) ->
                    ~ within adjusted (snd e)) ->
         determine_severity diagnosis_model overall_score pattern_scores
         = Ok "NO_ENFERMO"))
  /\ determine_severity diagnosis_model 0.0 [] = Ok "NO_ENFERMO"
  /\ determine_severity diagnosis_model 1.0 [("x", 1.0)]
     = Ok "ENFERMEDAD_CRONICA".
Proof.
  split; [|split; reflexivity].
  intros overall ps best adjusted Hbest Hadj.
  destruct (determine_severity_unfold diagnosis_model overall ps)
    as (best0 & Hbest0 & ->).
  assert (E : (overall + best0) / 2.0 == adjusted).
  { rewrite Hadj, half_eq, (strongest_unique _ _ _ Hbest Hbest0).
    reflexivity. }
  rewrite (threshold_loop_compat _ _ _ E).
  assert (Eleb : Py.leb 1.0 ((overall + best0) / 2.0) = Py.leb 1.0 adjusted)
    by (unfold Py.leb; now rewrite E).
  rewrite Eleb. clear E Eleb.
  repeat split.
  - intros l1 sev rg l2 Hsplit Hin Hbefore.
    assert (Hsome : threshold_loop (severity_thresholds diagnosis_model)
                      adjusted = Some sev).
    { apply threshold_loop_some. exists l1, rg, l2. auto. }
    now rewrite Hsome.
  - intros Hhigh. rewrite (model_threshold_loop_high _ Hhigh).
    assert (Hleb : Py.leb 1.0 adjusted = true) by (apply leb_le; lra).
    now rewrite Hleb.
  - intros Hlow Hnone. apply threshold_loop_none in Hnone. rewrite Hnone.
    assert (Hleb : Py.leb 1.0 adjusted = false) by (apply leb_gt; lra).
    now rewrite Hleb.
Qed.

(** C3 at concrete inputs: the scores 0.9 and x -> 0.5 give the adjusted
    score 0.7, which the third range is the first to contain; the scores
    1.5 and x -> 1.0 give 1.25; the scores -1 and the empty mapping give
    -0.5, which no range contains. *)
Lemma C3_determine_severity_witness :
  determine_severity diagnosis_model 0.9 [("x", 0.5)] = Ok "ENFERMEDAD_AGUDA"
  /\ determine_severity diagnosis_model 1.5 [("x", 1.0)]
     = Ok "ENFERMEDAD_CRONICA"
  /\ determine_severity diagnosis_model (-1) [] = Ok "NO_ENFERMO".
Proof.
  destruct C3_determine_severity as [H _].
  split; [|split].
  - destruct (H 0.9 [("x", 0.5)] 0.5 0.7) as [Hfirst _].
    + simpl. split; [now left|]. intros v [<-|[]]. apply Qle_refl.
    + reflexivity.
    + apply (Hfirst [ ("NO_ENFERMO", (0.0, 0.3));
                      ("ENFERMEDAD_LEVE", (0.3, 0.6)) ]
                    "ENFERMEDAD_AGUDA" (0.6, 0.8)
                    [("ENFERMEDAD_CRONICA", (0.8, 1.0))]).
      * reflexivity.
      * split; [discriminate | reflexivity].
      * intros e [<-|[<-|[]]] [_ Hhi]; discriminate Hhi.
  - destruct (H 1.5 [("x", 1.0)] 1.0 1.25) as (_ & Hhigh & _).
    + simpl. split; [now left|]. intros v [<-|[]]. apply Qle_refl.
    + reflexivity.
    + apply Hhigh. discriminate.
  - destruct (H (-1) [] 0.0 (-0.5)) as (_ & _ & Hlow).
    + reflexivity.
    + reflexivity.
    + apply Hlow; [reflexivity|].
      intros e [<-|[<-|[<-|[<-|[]]]]] [Hlo _]; apply Hlo; reflexivity.
Defined.

(** C6.  The threshold table holds exactly the four ranges NO_ENFERMO
    [[0, 0.3)], ENFERMEDAD_LEVE [[0.3, 0.6)], ENFERMEDAD_AGUDA [[0.6, 0.8)]
    and ENFERMEDAD_CRONICA [[0.8, 1.0)], in this order, and every [v] of
    [[0, 1)] lies in exactly one of them. *)
Theorem C6_severity_partition :
  severity_thresholds diagnosis_model
  = [ ("NO_ENFERMO", (0.0, 0.3)); ("ENFERMEDAD_LEVE", (0.3, 0.6));
      ("ENFERMEDAD_AGUDA", (0.6, 0.8)); ("ENFERMEDAD_CRONICA", (0.8, 1.0)) ]
  /\ forall v, 0 <= v -> v < 1 ->
       exists e,
         (In e (severity_thresholds diagnosis_model) /\ within v (snd e))
         /\ (forall e', In e' (severity_thresholds diagnosis_model) ->
                        within v (snd e') -> e' = e)
         /\ length (filter (fun e' => in_range v (snd e'))
                           (severity_thresholds diagnosis_model)) = 1%nat.
Proof.
  split; [reflexivity|].
  intros v Hlo Hhi.
  assert (Hcount : forall b1 b2 b3 b4,
            in_range v (0.0, 0.3) = b1 -> in_range v (0.3, 0.6) = b2 ->
            in_range v (0.6, 0.8) = b3 -> in_range v (0.8, 1.0) = b4 ->
            length (filter (fun e' : string * (Q * Q) => in_range v (snd e'))
                           (severity_thresholds diagnosis_model))
            = length (filter (fun b : bool => b) [b1; b2; b3; b4])).
  { intros b1 b2 b3 b4 <- <- <- <-. simpl.
    destruct (in_range v (0.0, 0.3)), (in_range v (0.3, 0.6)),
      (in_range v (0.6, 0.8)), (in_range v (0.8, 1.0)); reflexivity. }
  assert (Hyes : forall lo hi, lo <= v -> v < hi -> in_range v (lo, hi) = true).
  { intros lo hi H1 H2. apply in_range_within. now split. }
  assert (Hno : forall lo hi, v < lo \/ hi <= v -> in_range v (lo, hi) = false).
  { intros lo hi H. apply in_range_not_within. intros [H1 H2].
    simpl in H1, H2. lra. }
  destruct (Qlt_le_dec v 0.3) as [H3|H3];
    [|destruct (Qlt_le_dec v 0.6) as [H6|H6];
      [|destruct (Qlt_le_dec v 0.8) as [H8|H8]]].
  - exists ("NO_ENFERMO", (0.0, 0.3)). split; [|split].
    + split; [simpl; auto | split; simpl; lra].
    + intros e' He' [H1 H2]. simpl in He'.
      destruct He' as [<-|[<-|[<-|[<-|[]]]]]; simpl in H1, H2;
        reflexivity || lra.
    + rewrite (Hcount true false false false); try reflexivity;
        (apply Hyes || apply Hno); lra.
  - exists ("ENFERMEDAD_LEVE", (0.3, 0.6)). split; [|split].
    + split; [simpl; auto | split; simpl; lra].
    + intros e' He' [H1 H2]. simpl in He'.
      destruct He' as [<-|[<-|[<-|[<-|[]]]]]; simpl in H1, H2;
        reflexivity || lra.
    + rewrite (Hcount false true false false); try reflexivity;
        (apply Hyes || apply Hno); lra.
  - exists ("ENFERMEDAD_AGUDA", (0.6, 0.8)). split; [|split].
    + split; [simpl; auto | split; simpl; lra].
    + intros e' He' [H1 H2]. simpl in He'.
      destruct He' as [<-|[<-|[<-|[<-|[]]]]]; simpl in H1, H2;
        reflexivity || lra.
    + rewrite (Hcount false false true false); try reflexivity;
        (apply Hyes || apply Hno); lra.
  - exists ("ENFERMEDAD_CRONICA", (0.8, 1.0)). split; [|split].
    + split; [simpl; auto 6 | split; simpl; lra].
    + intros e' He' [H1 H2]. simpl in He'.
      destruct He' as [<-|[<-|[<-|[<-|[]]]]]; simpl in H1, H2;
        reflexivity || lra.
    + rewrite (Hcount false false false true); try reflexivity;
        (apply Hyes || apply Hno); lra.
Qed.

(** C6 at [v = 0.65]: the third range is the only one that contains it. *)
Lemma C6_severity_partition_witness :
  exists e,
    (In e (severity_thresholds diagnosis_model) /\ within 0.65 (snd e))
    /\ (forall e', In e' (severity_thresholds diagnosis_model) ->
                   within 0.65 (snd e') -> e' = e)
    /\ length (filter (fun e' => in_range 0.65 (snd e'))
                      (severity_thresholds diagnosis_model)) = 1%nat.
Proof.
  destruct C6_severity_partition as [_ H].
  apply (H 0.65); [discriminate | reflexivity].
Defined.

(** C8.  [_generate_recommendations] does not depend on its condition
    argument (nor on the tables): the label NO_ENFERMO gives a list of 3
    strings, ENFERMEDAD_LEVE a list of 4, ENFERMEDAD_AGUDA a list of 5 and
    ENFERMEDAD_CRONICA a list of 5, and any other label gives the empty
    list. *)
Theorem C8_generate_recommendations :
  (forall self self' severity condition condition',
     _generate_recommendations self severity condition
     = _generate_recommendations self' severity condition')
  /\ (forall self condition,
        length (_generate_recommendations self "NO_ENFERMO" condition) = 3%nat
        /\ length (_generate_recommendations self "ENFERMEDAD_LEVE" condition)
           = 4%nat
        /\ length (_generate_recommendations self "ENFERMEDAD_AGUDA" condition)
           = 5%nat
        /\ length (_generate_recommendations self "ENFERMEDAD_CRONICA"
                     condition) = 5%nat)
  /\ (forall self severity condition,
        In severity severity_labels ->
        (3 <= length (_generate_recommendations self severity condition) <= 5)
          %nat)
  /\ (forall self severity condition,
        ~ In severity severity_labels ->
        _generate_recommendations self severity condition = []).
Proof.
  split; [reflexivity|]. split; [repeat split; reflexivity|]. split.
  - intros self severity condition Hin. unfold severity_labels in Hin.
    simpl in Hin. destruct Hin as [<-|[<-|[<-|[<-|[]]]]]; simpl; lia.
  - intros self severity condition Hnot.
    unfold _generate_recommendations.
    destruct (String.eqb severity "NO_ENFERMO") eqn:E1;
      [apply String.eqb_eq in E1; subst; exfalso; apply Hnot; simpl; auto|].
    destruct (String.eqb severity "ENFERMEDAD_LEVE") eqn:E2;
      [apply String.eqb_eq in E2; subst; exfalso; apply Hnot; simpl; auto|].
    destruct (String.eqb severity "ENFERMEDAD_AGUDA") eqn:E3;
      [apply String.eqb_eq in E3; subst; exfalso; apply Hnot; simpl; auto|].
    destruct (String.eqb severity "ENFERMEDAD_CRONICA") eqn:E4;
      [apply String.eqb_eq in E4; subst; exfalso; apply Hnot; simpl; auto 6|].
    reflexivity.
Qed.

(** C8 at the label of the error record, which is none of the four, and at
    the label ENFERMEDAD_AGUDA. *)
Lemma C8_generate_recommendations_witness :
  _generate_recommendations diagnosis_model "ERROR" "migrana" = []
  /\ (3 <= length (_generate_recommendations diagnosis_model
                     "ENFERMEDAD_AGUDA" "migrana") <= 5)%nat.
Proof.
  destruct C8_generate_recommendations as (_ & _ & Hin & Hother).
  split.
  - apply Hother. unfold severity_labels. simpl.
    intros [H|[H|[H|[H|[]]]]]; discriminate H.
  - apply Hin. unfold severity_labels. simpl. auto.
Defined.

(** C4.  For every symptom input with fewer than 3 entries (the empty
    input included; the entries are counted whether their keys are
    recognised or not), the [try] block raises the validation error, the
    handler of [predict_diagnosis] catches it, and the function returns the
    record of the three fields [error] (the message), [diagnosis = "ERROR"]
    and [confidence = 0.0].  [predict_diagnosis] is a total function into
    records: nothing is raised to the caller. *)
Theorem C4_predict_diagnosis_invalid (self : MedicalDiagnosisModel)
    (symptoms : dict Q) :
  (len symptoms < 3)%nat ->
  predict_diagnosis_try self symptoms = Raise (ValueError validation_message)
  /\ predict_diagnosis self symptoms
     = [ ("error", VStr validation_message);
         ("diagnosis", VStr "ERROR");
         ("confidence", VFloat 0.0) ]
  /\ get (predict_diagnosis self symptoms) "diagnosis" = Some (VStr "ERROR")
  /\ get (predict_diagnosis self symptoms) "confidence" = Some (VFloat 0.0)
  /\ get (predict_diagnosis self symptoms) "error"
     = Some (VStr validation_message).
Proof.
  intros Hlen.
  pose proof (predict_diagnosis_try_invalid self symptoms Hlen) as E.
  unfold predict_diagnosis. rewrite E. repeat split.
Qed.

(** C4 at the input [{'fiebre': 8}] of the specification, at an input of
    two entries with unknown keys and at the empty input. *)
Lemma C4_predict_diagnosis_invalid_witness :
  get (predict_diagnosis diagnosis_model [("fiebre", 8)]) "diagnosis"
    = Some (VStr "ERROR")
  /\ get (predict_diagnosis diagnosis_model [("fiebre", 8)]) "confidence"
     = Some (VFloat 0.0)
  /\ predict_diagnosis diagnosis_model [("picazon", 7); ("hipo", 3)]
     = [ ("error", VStr validation_message);
         ("diagnosis", VStr "ERROR");
         ("confidence", VFloat 0.0) ]
  /\ predict_diagnosis_try diagnosis_model []
     = Raise (ValueError validation_message).
Proof.
  split; [|split; [|split]].
  - apply (C4_predict_diagnosis_invalid diagnosis_model [("fiebre", 8)]).
    simpl. lia.
  - apply (C4_predict_diagnosis_invalid diagnosis_model [("fiebre", 8)]).
    simpl. lia.
  - apply (C4_predict_diagnosis_invalid diagnosis_model
             [("picazon", 7); ("hipo", 3)]).
    simpl. lia.
  - apply (C4_predict_diagnosis_invalid diagnosis_model []).
    simpl. lia.
Defined.



Lemma first_max_get (ps : dict Q) (c : string) (v : Q) :
  NoDup (keys ps) -> first_max snd ps (c, v) -> get ps c = Some v.
Proof.
  intros Hnd (l1 & l2 & -> & _). apply get_first.
  rewrite keys_app in Hnd. simpl in Hnd.
  apply NoDup_remove_2 in Hnd. intros H. apply Hnd.
  apply in_or_app. now left.
Qed.








(** * Further properties of the pipeline *)

(** ** Inputs that agree on the symptoms of the patterns *)

Lemma get_set_other {V} (d : dict V) (k k' : string) (v : V) :
  k' <> k -> get (set k v d) k' = get d k'.
Proof.
  intros Hne. induction d as [|[k0 v0] d IH]; simpl.
  - apply String.eqb_neq in Hne. now rewrite Hne.
  - destruct (String.eqb k k0) eqn:E; simpl.
    + apply String.eqb_eq in E. subst k0.
      apply String.eqb_neq in Hne. now rewrite Hne.
    + now rewrite IH.
Qed.

Lemma pattern_symptom_body_agree (self : MedicalDiagnosisModel)
    (s s' : dict Q) (st : Q * nat) (sym : string) :
  get s sym = get s' sym ->
  pattern_symptom_body self s st sym = pattern_symptom_body self s' st sym.
Proof.
  intros E. destruct st as [score m].
  rewrite !pattern_symptom_body_eq. unfold present, get_default.
  now rewrite E.
Qed.

Lemma pattern_loop_agree (self : MedicalDiagnosisModel) (s s' : dict Q)
    (pat : list string) :
  (forall sym, In sym pat -> get s sym = get s' sym) ->
  forall st,
    for_each (pattern_symptom_body self s) pat st
    = for_each (pattern_symptom_body self s') pat st.
Proof.
  induction pat as [|sym pat IH]; intros H st; [reflexivity|].
  rewrite !for_each_cons.
  rewrite (pattern_symptom_body_agree self s s' st sym)
    by (apply H; now left).
  destruct (pattern_symptom_body self s' st sym); simpl; [|reflexivity].
  apply IH. intros sym' Hin. apply H. now right.
Qed.

Lemma detect_agree (self : MedicalDiagnosisModel) (s s' : dict Q) :
  (forall c pat sym,
     In (c, pat) (disease_patterns self) -> In sym pat ->
     get s sym = get s' sym) ->
  detect_disease_patterns self s = detect_disease_patterns self s'.
Proof.
  unfold detect_disease_patterns, items.
  generalize (@nil (string * Q)).
  induction (disease_patterns self) as [|[c pat] ps IH]; intros acc H;
    [reflexivity|].
  rewrite !for_each_cons.
  assert (E : disease_pattern_body self s acc (c, pat)
              = disease_pattern_body self s' acc (c, pat)).
  { unfold disease_pattern_body.
    rewrite (pattern_loop_agree self s s' pat); [reflexivity|].
    intros sym Hin. apply (H c pat sym); [now left | exact Hin]. }
  rewrite E.
  destruct (disease_pattern_body self s' acc (c, pat)); simpl; [|reflexivity].
  apply IH. intros c' pat' sym Hin Hsym. apply (H c' pat' sym); [now right|].
  exact Hsym.
Qed.

Lemma model_patterns_weighted : patterns_weighted diagnosis_model.
Proof.
  intros c pat sym Hin Hsym.
  assert (Hall : forallb (fun e : string * list string =>
                            forallb (fun x => mem x
                                       (symptom_weights diagnosis_model))
                                    (snd e))
                         (disease_patterns diagnosis_model) = true)
    by reflexivity.
  rewrite forallb_forall in Hall. specialize (Hall _ Hin). simpl in Hall.
  rewrite forallb_forall in Hall. now apply Hall.
Qed.

Lemma symptom_loop_unknown (self : MedicalDiagnosisModel) (k : string)
    (v : Q) (s : dict Q) :
  mem k (symptom_weights self) = false ->
  forall st,
    for_each (symptom_score_body self) (set k v s) st
    = for_each (symptom_score_body self) s st.
Proof.
  intros Hk. apply mem_false_get in Hk.
  induction s as [|[k' v'] s IH]; intros [ts tw].
  - simpl set. rewrite for_each_cons, symptom_score_body_eq, Hk.
    reflexivity.
  - simpl set. destruct (String.eqb k k') eqn:E.
    + apply String.eqb_eq in E. subst k'.
      rewrite !for_each_cons, !symptom_score_body_eq, Hk. reflexivity.
    + rewrite !for_each_cons.
      destruct (symptom_score_body self (ts, tw) (k', v')); simpl;
        [apply IH | reflexivity].
Qed.

(** X1.  An entry whose key is not in the weight table is ignored by both
    scores: storing any value under such a key, new or already present,
    changes neither the result of [calculate_symptom_score] nor the result
    of [detect_disease_patterns]. *)
Theorem X1_unknown_key_ignored (symptoms : dict Q) (k : string) (v : Q) :
  mem k (symptom_weights diagnosis_model) = false ->
  calculate_symptom_score diagnosis_model (set k v symptoms)
  = calculate_symptom_score diagnosis_model symptoms
  /\ detect_disease_patterns diagnosis_model (set k v symptoms)
     = detect_disease_patterns diagnosis_model symptoms.
Proof.
  intros Hk. split.
  - unfold calculate_symptom_score, items.
    now rewrite symptom_loop_unknown.
  - apply detect_agree. intros c pat sym Hin Hsym.
    apply get_set_other. intros ->.
    rewrite (model_patterns_weighted c pat k Hin Hsym) in Hk. discriminate.
Qed.

(** X1 at the example of the source, with an unknown symptom added. *)
Lemma X1_unknown_key_ignored_witness :
  calculate_symptom_score diagnosis_model (set "picazon" 9 example_symptoms)
  = calculate_symptom_score diagnosis_model example_symptoms
  /\ detect_disease_patterns diagnosis_model
       (set "picazon" 9 example_symptoms)
     = detect_disease_patterns diagnosis_model example_symptoms.
Proof.
  apply (X1_unknown_key_ignored example_symptoms "picazon" 9). reflexivity.
Defined.

(** ** The order of the entries of the input *)

Lemma get_not_in {V} (d : dict V) (k : string) :
  ~ In k (keys d) -> get d k = None.
Proof. apply get_None_keys. Qed.

Lemma get_perm {V} (d d' : dict V) :
  Permutation d d' -> NoDup (keys d) -> forall k, get d k = get d' k.
Proof.
  induction 1
    as [| [k0 v0] d d' Hp IH | [k1 v1] [k2 v2] d | d1 d2 d3 H1 IH1 H2 IH2];
    intros Hnd k.
  - reflexivity.
  - simpl. simpl in Hnd. inversion Hnd; subst.
    destruct (String.eqb k k0); [reflexivity | now apply IH].
  - simpl. simpl in Hnd. inversion Hnd as [|? ? Hn1 Hnd']; subst.
    destruct (String.eqb k k2) eqn:E2; destruct (String.eqb k k1) eqn:E1;
      try reflexivity.
    apply String.eqb_eq in E1, E2. subst. exfalso. apply Hn1. now left.
  - rewrite IH1 by exact Hnd. apply IH2.
    unfold keys in *. eapply Permutation_NoDup; [|exact Hnd].
    now apply Permutation_map.
Qed.



(** ** The two scores as values *)





(** X2.  The result of [detect_disease_patterns] does not depend on the
    order of the entries of the input: two inputs with distinct keys that
    hold the same entries in different orders give the same mapping. *)
Theorem X2_detect_order_independent (symptoms symptoms' : dict Q) :
  NoDup (keys symptoms) ->
  Permutation symptoms symptoms' ->
  detect_disease_patterns diagnosis_model symptoms
  = detect_disease_patterns diagnosis_model symptoms'.
Proof.
  intros Hnd Hperm. apply detect_agree. intros c pat sym _ _.
  now apply get_perm.
Qed.

(** X2 at the example of the source with its entries reversed. *)
Lemma X2_detect_order_independent_witness :
  detect_disease_patterns diagnosis_model example_symptoms
  = detect_disease_patterns diagnosis_model (rev example_symptoms).
Proof.
  apply X2_detect_order_independent.
  - unfold example_symptoms, keys. simpl.
    repeat (constructor; [simpl; intuition discriminate|]). constructor.
  - apply Permutation_rev.
Defined.




(** ** The normalised intensity by cases *)













(** ** The overall score as a weighted average *)






Section Average.

Variable self : MedicalDiagnosisModel.

Hypothesis weights_range : forall k w,
  get (symptom_weights self) k = Some w -> 0 < w /\ w <= 1.

Variable symptoms : dict Q.





End Average.





(** ** The score of a condition *)



Section ConditionScore.

Variable self : MedicalDiagnosisModel.

Hypothesis weights_range : forall k w,
  get (symptom_weights self) k = Some w -> 0 < w /\ w <= 1.

Variable symptoms : dict Q.







End ConditionScore.







(** ** The severity as a function of the adjusted score *)

Lemma model_threshold_severity_of (a : Q) :
  match threshold_loop (severity_thresholds diagnosis_model) a with
  | Some severity => Ok severity
  | None =>
      if Py.leb 1.0 a then Ok "ENFERMEDAD_CRONICA" else Ok "NO_ENFERMO"
  end = Ok (severity_of a).
Proof.
  simpl. unfold in_range, severity_of. simpl fst. simpl snd.
  unfold Py.leb.
  repeat match goal with
  | |- context [Qle_bool ?x ?y] =>
      let H := fresh "H" in
      destruct (Qle_bool x y) eqn:H;
      [apply leb_le in H | apply leb_gt in H]
  end;
  cbn [andb];
  repeat match goal with
  | |- context [Py.ltb ?x ?y] => ltb_case x y
  end;
  cbn [andb]; reflexivity || (exfalso; lra).
Qed.

Lemma severity_of_compat (a a' : Q) :
  a == a' -> severity_of a = severity_of a'.
Proof.
  intros E.
  assert (H : forall c, Py.ltb a c = Py.ltb a' c)
    by (intros c; unfold Py.ltb; now rewrite E).
  unfold severity_of. now rewrite !H.
Qed.

Lemma determine_severity_of (overall_score : Q) (pattern_scores : dict Q)
    (best adjusted : Q) :
  strongest pattern_scores best ->
  adjusted == (overall_score + best) / 2 ->
  determine_severity diagnosis_model overall_score pattern_scores
  = Ok (severity_of adjusted).
Proof.
  intros Hbest Hadj.
  destruct (determine_severity_unfold diagnosis_model overall_score
              pattern_scores) as (best0 & Hbest0 & ->).
  rewrite model_threshold_severity_of. f_equal.
  apply severity_of_compat.
  rewrite Hadj, half_eq, (strongest_unique _ _ _ Hbest Hbest0). reflexivity.
Qed.


Lemma severity_of_mono (a a' : Q) :
  a <= a' ->
  (severity_rank (severity_of a) <= severity_rank (severity_of a'))%nat.
Proof.
  intros Hle. unfold severity_of.
  ltb_case a 0.3; ltb_case a' 0.3; ltb_cases;
    try (exfalso; lra); vm_compute; lia.
Qed.

(** X9.  With [best] the maximum of the pattern scores ([0.0] for an empty
    mapping) and [adjusted = (overall + best) / 2], the label returned by
    [determine_severity] depends on [adjusted] alone, also outside
    [[0, 1)]: NO_ENFERMO below 0.3 (negative values included),
    ENFERMEDAD_LEVE from 0.3 to below 0.6, ENFERMEDAD_AGUDA from 0.6 to
    below 0.8 and ENFERMEDAD_CRONICA from 0.8 on. *)
Theorem X9_severity_by_cases (overall_score : Q) (pattern_scores : dict Q)
    (best adjusted : Q) :
  strongest pattern_scores best ->
  adjusted == (overall_score + best) / 2 ->
  (adjusted < 0.3 ->
   determine_severity diagnosis_model overall_score pattern_scores
   = Ok "NO_ENFERMO")
  /\ (0.3 <= adjusted -> adjusted < 0.6 ->
      determine_severity diagnosis_model overall_score pattern_scores
      = Ok "ENFERMEDAD_LEVE")
  /\ (0.6 <= adjusted -> adjusted < 0.8 ->
      determine_severity diagnosis_model overall_score pattern_scores
      = Ok "ENFERMEDAD_AGUDA")
  /\ (0.8 <= adjusted ->
      determine_severity diagnosis_model overall_score pattern_scores
      = Ok "ENFERMEDAD_CRONICA").
Proof.
  intros Hbest Hadj.
  rewrite (determine_severity_of _ _ _ _ Hbest Hadj).
  unfold severity_of.
  repeat split; intros; ltb_cases; reflexivity || (exfalso; lra).
Qed.

(** X9 at a negative adjusted score and at the bound 0.8. *)
Lemma X9_severity_by_cases_witness :
  determine_severity diagnosis_model (-3) [("x", 1)] = Ok "NO_ENFERMO"
  /\ determine_severity diagnosis_model 0.9 [("x", 0.7)]
     = Ok "ENFERMEDAD_CRONICA".
Proof.
  split.
  - destruct (X9_severity_by_cases (-3) [("x", 1)] 1 (-1)) as (H & _).
    + simpl. split; [now left|]. intros v [<-|[]]. apply Qle_refl.
    + reflexivity.
    + apply H. reflexivity.
  - destruct (X9_severity_by_cases 0.9 [("x", 0.7)] 0.7 0.8)
      as (_ & _ & _ & H).
    + simpl. split; [now left|]. intros v [<-|[]]. apply Qle_refl.
    + reflexivity.
    + apply H. discriminate.
Defined.

(** X10.  The severity never decreases with the scores: when the sum of
    the overall score and of the best pattern score does not decrease, the
    label returned by [determine_severity] does not move down in the order
    NO_ENFERMO, ENFERMEDAD_LEVE, ENFERMEDAD_AGUDA, ENFERMEDAD_CRONICA. *)
Theorem X10_severity_monotone (overall_score overall_score' : Q)
    (pattern_scores pattern_scores' : dict Q) (best best' : Q) :
  strongest pattern_scores best ->
  strongest pattern_scores' best' ->
  overall_score + best <= overall_score' + best' ->
  exists severity severity',
    determine_severity diagnosis_model overall_score pattern_scores
      = Ok severity
    /\ determine_severity diagnosis_model overall_score' pattern_scores'
       = Ok severity'
    /\ (severity_rank severity <= severity_rank severity')%nat.
Proof.
  intros Hb Hb' Hle.
  exists (severity_of ((overall_score + best) / 2)),
         (severity_of ((overall_score' + best') / 2)).
  split; [apply (determine_severity_of _ _ best); [exact Hb | reflexivity]|].
  split; [apply (determine_severity_of _ _ best'); [exact Hb' | reflexivity]|].
  apply severity_of_mono.
  unfold Qdiv. apply Qmult_le_compat_r; [exact Hle | discriminate].
Qed.

(** X10 with the overall score raised from 0.2 to 0.9 over the same
    pattern scores. *)
Lemma X10_severity_monotone_witness :
  exists severity severity',
    determine_severity diagnosis_model 0.2 [("x", 0.5); ("y", 0.1)]
      = Ok severity
    /\ determine_severity diagnosis_model 0.9 [("x", 0.5); ("y", 0.1)]
       = Ok severity'
    /\ (severity_rank severity <= severity_rank severity')%nat.
Proof.
  apply (X10_severity_monotone 0.2 0.9 _ _ 0.5 0.5).
  - simpl. split; [now left|]. intros v [<-|[<-|[]]]; discriminate.
  - simpl. split; [now left|]. intros v [<-|[<-|[]]]; discriminate.
  - discriminate.
Defined.

(** ** The diagnosis, end to end *)













(** ** The fields of the result *)




Lemma predict_medical_diagnosis_valid (symptoms : dict Q) :
  (3 <= len symptoms)%nat ->
  exists overall ps severity ml,
    calculate_symptom_score diagnosis_model symptoms = Ok overall
    /\ detect_disease_patterns diagnosis_model symptoms = Ok ps
    /\ keys ps = condition_names
    /\ determine_severity diagnosis_model overall ps = Ok severity
    /\ In severity severity_labels
    /\ first_max snd ps ml
    /\ predict_medical_diagnosis symptoms
       = [ ("diagnosis", VStr severity);
           ("confidence", VFloat (Py.round overall 3));
           ("most_likely_condition", VStr (fst ml));
           ("condition_confidence", VFloat (Py.round (snd ml) 3));
           ("symptom_score", VFloat (Py.round overall 3));
           ("pattern_scores", VDict (map round3_entry ps));
           ("recommendations",
             VList (_generate_recommendations diagnosis_model severity
                      (fst ml)));
           ("input_symptoms", VDict symptoms) ].
Proof.
  intros Hlen.
  destruct (predict_diagnosis_try_valid symptoms Hlen)
    as (o & ps & sev & ml & Hcalc & Hdet & Hkeys & Hsev & Hlab & _ & Hfirst
        & Htry).
  exists o, ps, sev, ml.
  repeat (split; [assumption|]).
  unfold predict_medical_diagnosis, predict_diagnosis. rewrite Htry.
  unfold success_result. rewrite rounded_scores_map; [reflexivity|].
  rewrite Hkeys. apply condition_names_nodup.
Qed.









(** X16.  In every non-error result [most_likely_condition] is one of the
    13 conditions of the pattern table, never the sentinel ['ninguna'] of
    the selection, and [condition_confidence] is the value that the field
    [pattern_scores] of the same result holds for that condition. *)
Theorem X16_condition_is_known (symptoms : dict Q) :
  get (predict_medical_diagnosis symptoms) "error" = None ->
  exists condition confidence scores,
    get (predict_medical_diagnosis symptoms) "most_likely_condition"
      = Some (VStr condition)
    /\ get (predict_medical_diagnosis symptoms) "condition_confidence"
       = Some (VFloat confidence)
    /\ get (predict_medical_diagnosis symptoms) "pattern_scores"
       = Some (VDict scores)
    /\ In condition condition_names
    /\ condition <> "ninguna"
    /\ get scores condition = Some confidence.
Proof.
  intros Herr.
  pose proof (predict_diagnosis_error_free symptoms Herr) as Hlen.
  destruct (predict_medical_diagnosis_valid symptoms Hlen)
    as (o & ps & sev & [c v] & _ & _ & Hkeys & _ & _ & Hfirst & ->).
  assert (Hnd : NoDup (keys ps))
    by (rewrite Hkeys; apply condition_names_nodup).
  assert (Hin : In c condition_names).
  { rewrite <- Hkeys. unfold keys. change c with (fst (c, v)).
    apply in_map. eapply first_max_In. eassumption. }
  exists c, (Py.round v 3), (map round3_entry ps).
  do 3 (split; [reflexivity|]). split; [exact Hin|]. split.
  - intros ->. unfold condition_names in Hin. simpl in Hin.
    repeat (destruct Hin as [Hin|Hin]; [discriminate Hin|]). contradiction.
  - rewrite get_map_round3, (first_max_get ps c v Hnd Hfirst). reflexivity.
Qed.

(** X16 at the example of the source. *)
Lemma X16_condition_is_known_witness :
  exists condition,
    get (predict_medical_diagnosis example_symptoms) "most_likely_condition"
      = Some (VStr condition)
    /\ In condition condition_names
    /\ condition <> "ninguna".
Proof.
  destruct (X16_condition_is_known example_symptoms)
    as (c & cc & rs & Hc & _ & _ & Hin & Hne & _).
  - reflexivity.
  - exists c. repeat split; assumption.
Defined.




